(** * Gratitude journal: the entry store, the draft and the language selector

    A shallow embedding of [src/App.tsx] (both variants of [AppContent]) and
    of [src/context/LanguageContext.tsx].  React state hooks become fields of
    a state record, every event handler becomes a function on that record,
    and the readings the handlers take from the browser (the clock, the
    canvas, a finished file read) are arguments of the event that triggers
    them. *)

From Stdlib Require Import List ZArith NArith Bool Lia String Ascii Sorted.
Import ListNotations.

(** ** JavaScript strings

    A JavaScript string is a sequence of UTF-16 code units.  Only the
    operations the handlers use are embedded: truthiness, [trim], [||] with
    a string default and [split(sep)[0]]. *)

Module JS.

Definition JSString := list N.

(** An ASCII literal of the source as code units. *)
Definition lit (s : string) : JSString :=
  map N_of_ascii (list_ascii_of_string s).

(** [WhiteSpace] and [LineTerminator] of ECMAScript: what [trim] strips. *)
Definition isWhiteSpace (c : N) : bool :=
  ((0x09 <=? c) && (c <=? 0x0D) || (c =? 0x20) || (c =? 0xA0)
   || (c =? 0x1680) || (0x2000 <=? c) && (c <=? 0x200A)
   || (c =? 0x2028) || (c =? 0x2029) || (c =? 0x202F) || (c =? 0x205F)
   || (c =? 0x3000) || (c =? 0xFEFF))%N.

Fixpoint trimStart (s : JSString) : JSString :=
  match s with
  | [] => []
  | c :: r => if isWhiteSpace c then trimStart r else s
  end.

Definition trimEnd (s : JSString) : JSString := rev (trimStart (rev s)).

Definition trim (s : JSString) : JSString := trimEnd (trimStart s).

(** [ToBoolean] on a string: the empty string is the only falsy one. *)
Definition truthy (s : JSString) : bool :=
  match s with [] => false | _ :: _ => true end.

(** [v || d] where [v] is a string or [undefined] ([None]). *)
Definition orElse (v : option JSString) (d : JSString) : JSString :=
  match v with
  | Some s => if truthy s then s else d
  | None => d
  end.

(** What a string property can hold at run time: nothing ([undefined], the
    property is absent), [null], or a string. *)
Inductive Value : Type :=
| undefined
| null
| str (s : JSString).

(** [ToBoolean] on such a value: [undefined], [null] and [''] are falsy. *)
Definition truthyProp (v : Value) : bool :=
  match v with str s => truthy s | undefined | null => false end.

(** [s.split(sep)[0]] for a one-unit separator: the part before the first
    [sep], the whole string when there is none. *)
Fixpoint splitHead (sep : N) (s : JSString) : JSString :=
  match s with
  | [] => []
  | c :: r => if (c =? sep)%N then [] else c :: splitHead sep r
  end.

End JS.

Abbreviation JSString := JS.JSString.

(** ** LanguageContext.tsx *)

Module LanguageContext.

Inductive Language : Type := en | th.

Definition Language_eqb (a b : Language) : bool :=
  match a, b with
  | en, en | th, th => true
  | _, _ => false
  end.

(** [useState<'en' | 'th'>('en')] *)
Definition initial : Language := en.

(** [language === 'en' ? 'th' : 'en'], stored by [setLanguage]. *)
Definition toggleLanguage (language : Language) : Language :=
  if Language_eqb language en then th else en.

End LanguageContext.

Abbreviation Language := LanguageContext.Language.

(** ** The entry record of App.tsx

    [image?] and [drawing?] are optional properties: [JS.undefined] is an
    absent property.  The second variant's interface has neither, so its
    entries carry [JS.undefined] in both.  The image of the first variant
    is the draft's, which a failed file read leaves at [null]. *)

Module GratitudeEntry.

Record t : Type := mk {
  id : Z;
  title : JSString;
  description : JSString;
  date : JSString;
  image : JS.Value;
  drawing : JS.Value
}.

End GratitudeEntry.

Abbreviation GratitudeEntry := GratitudeEntry.t.

(** What is prepended by [[entry, ...entries]] when an entry was built. *)
Definition created (o : option GratitudeEntry) : list GratitudeEntry :=
  match o with Some e => [e] | None => [] end.

(** ** Event traces over a component

    Both variants are run the same way: a handler takes the state to the
    next state and reports the entry it built, if any. *)

Section Traces.

Variables State Event : Type.
Variable step : Event -> State -> State * option GratitudeEntry.

Fixpoint run (evs : list Event) (s : State) : State :=
  match evs with
  | [] => s
  | ev :: rest => run rest (fst (step ev s))
  end.

(** The entries built along a trace, oldest first. *)
Fixpoint produced (evs : list Event) (s : State) : list GratitudeEntry :=
  match evs with
  | [] => []
  | ev :: rest => created (snd (step ev s)) ++ produced rest (fst (step ev s))
  end.

End Traces.

Arguments run {State Event} step evs s.
Arguments produced {State Event} step evs s.

(** ** First variant of AppContent: entries with photo and drawing *)

Module App.

Module NewEntry.
Record t : Type := mk {
  title : JSString;
  description : JSString;
  image : JS.Value;
  drawing : JSString
}.
End NewEntry.

Abbreviation NewEntry := NewEntry.t.

(** [{ title: '', description: '', image: '', drawing: '' }] *)
Definition emptyNewEntry : NewEntry := NewEntry.mk [] [] (JS.str []) [].

(** The hooks of the component.  [readers] holds the file reads that are
    under way: each [onloadend] callback with the [newEntry] it closed
    over when [handleImageChange] ran. *)
Record State : Type := mkState {
  language : Language;
  entries : list GratitudeEntry;
  newEntry : NewEntry;
  isAdding : bool;
  isDrawing : bool;
  readers : list NewEntry
}.

Definition initial : State :=
  mkState LanguageContext.initial [] emptyNewEntry false false [].

Definition setLanguage (l : Language) (s : State) : State :=
  mkState l (entries s) (newEntry s) (isAdding s) (isDrawing s) (readers s).
Definition setEntries (es : list GratitudeEntry) (s : State) : State :=
  mkState (language s) es (newEntry s) (isAdding s) (isDrawing s) (readers s).
Definition setNewEntry (d : NewEntry) (s : State) : State :=
  mkState (language s) (entries s) d (isAdding s) (isDrawing s) (readers s).
Definition setIsAdding (b : bool) (s : State) : State :=
  mkState (language s) (entries s) (newEntry s) b (isDrawing s) (readers s).
Definition setIsDrawing (b : bool) (s : State) : State :=
  mkState (language s) (entries s) (newEntry s) (isAdding s) b (readers s).
Definition setReaders (rs : list NewEntry) (s : State) : State :=
  mkState (language s) (entries s) (newEntry s) (isAdding s) (isDrawing s) rs.

(** [onChange] of the title input: [{ ...newEntry, title: e.target.value }] *)
Definition changeTitle (v : JSString) (s : State) : State :=
  let d := newEntry s in
  setNewEntry (NewEntry.mk v (NewEntry.description d) (NewEntry.image d)
                           (NewEntry.drawing d)) s.

(** [onChange] of the description textarea. *)
Definition changeDescription (v : JSString) (s : State) : State :=
  let d := newEntry s in
  setNewEntry (NewEntry.mk (NewEntry.title d) v (NewEntry.image d)
                           (NewEntry.drawing d)) s.

(** [handleImageChange]: with a file selected, a reader is started whose
    [onloadend] closes over the [newEntry] of this render. *)
Definition handleImageChange (file : bool) (s : State) : State :=
  if file then setReaders (readers s ++ [newEntry s]) s else s.

Fixpoint removeNth {A : Type} (k : nat) (l : list A) : list A :=
  match k, l with
  | _, [] => []
  | O, _ :: r => r
  | S k', x :: r => x :: removeNth k' r
  end.

(** [reader.onloadend] of the [k]-th read under way:
    [setNewEntry({ ...newEntry, image: reader.result })] with the
    [newEntry] the callback closed over.  The callback runs at the end of
    every read: [result] is the data URL of a read that succeeded and
    [null] after one that failed or was aborted. *)
Definition onloadend (k : nat) (result : JS.Value) (s : State) : State :=
  match nth_error (readers s) k with
  | Some d =>
      setNewEntry (NewEntry.mk (NewEntry.title d) (NewEntry.description d)
                               result (NewEntry.drawing d))
                  (setReaders (removeNth k (readers s)) s)
  | None => s
  end.

Definition handleMouseDown (s : State) : State := setIsDrawing true s.
Definition handleMouseUp (s : State) : State := setIsDrawing false s.

(** [handleMouseMove] strokes the canvas and touches no hook. *)
Definition handleMouseMove (x y : Z) (s : State) : State := s.

(** The cancel button: [() => setIsAdding(false)]. *)
Definition clickCancel (s : State) : State := setIsAdding false s.

(** The two add buttons: [() => setIsAdding(true)]. *)
Definition clickAdd (s : State) : State := setIsAdding true s.

(** The object literal [entry] of [handleSubmit].  [now] is [Date.now()],
    [iso] is [new Date().toISOString()] and [snapshot] is
    [canvasRef.current?.toDataURL()]. *)
Definition mkEntry (now : Z) (iso : JSString) (snapshot : option JSString)
           (d : NewEntry) : GratitudeEntry :=
  GratitudeEntry.mk now (NewEntry.title d) (NewEntry.description d)
                    (JS.splitHead (N_of_ascii "T") iso)
                    (NewEntry.image d)
                    (JS.str (JS.orElse snapshot [])).

Definition handleSubmit (now : Z) (iso : JSString)
           (snapshot : option JSString) (s : State)
  : State * option GratitudeEntry :=
  if JS.truthy (JS.trim (NewEntry.title (newEntry s)))
     && JS.truthy (JS.trim (NewEntry.description (newEntry s)))
  then
    let entry := mkEntry now iso snapshot (newEntry s) in
    (setIsAdding false
       (setNewEntry emptyNewEntry (setEntries (entry :: entries s) s)),
     Some entry)
  else (s, None).

Inductive Event : Type :=
| ToggleLanguage
| ClickAdd
| ChangeTitle (v : JSString)
| ChangeDescription (v : JSString)
| ImageChange (file : bool)
| LoadEnd (k : nat) (result : JS.Value)
| MouseDown
| MouseUp
| MouseMove (x y : Z)
| ClickCancel
| Submit (now : Z) (iso : JSString) (snapshot : option JSString).

Definition step (ev : Event) (s : State) : State * option GratitudeEntry :=
  match ev with
  | ToggleLanguage =>
      (setLanguage (LanguageContext.toggleLanguage (language s)) s, None)
  | ClickAdd => (clickAdd s, None)
  | ChangeTitle v => (changeTitle v s, None)
  | ChangeDescription v => (changeDescription v s, None)
  | ImageChange file => (handleImageChange file s, None)
  | LoadEnd k result => (onloadend k result s, None)
  | MouseDown => (handleMouseDown s, None)
  | MouseUp => (handleMouseUp s, None)
  | MouseMove x y => (handleMouseMove x y s, None)
  | ClickCancel => (clickCancel s, None)
  | Submit now iso snapshot => handleSubmit now iso snapshot s
  end.

(** [entries.map(...)] renders the list as it is held. *)
Definition listEntries (s : State) : list GratitudeEntry := entries s.

(** The [Date.now()] readings taken along a trace, in order: a submission
    reads the clock only once its check has passed. *)
Fixpoint clocks (evs : list Event) (s : State) : list Z :=
  match evs with
  | [] => []
  | ev :: rest =>
      match ev with
      | Submit now _ _ =>
          if JS.truthy (JS.trim (NewEntry.title (newEntry s)))
             && JS.truthy (JS.trim (NewEntry.description (newEntry s)))
          then [now] else []
      | _ => []
      end ++ clocks rest (fst (step ev s))
  end.

End App.

(** ** Second variant of AppContent: seeded entries, no attachments *)

Module AppSeeded.

Module NewEntry.
Record t : Type := mk {
  title : JSString;
  description : JSString
}.
End NewEntry.

Abbreviation NewEntry := NewEntry.t.

(** [{ title: '', description: '' }] *)
Definition emptyNewEntry : NewEntry := NewEntry.mk [] [].

Definition morningSunshine_th : JSString :=
  [0x0E41; 0x0E2A; 0x0E07; 0x0E41; 0x0E14; 0x0E14; 0x0E22; 0x0E32; 0x0E21;
   0x0E40; 0x0E0A; 0x0E49; 0x0E32]%N.

Definition sunlight_th : JSString :=
  [0x0E27; 0x0E34; 0x0E18; 0x0E35; 0x0E17; 0x0E35; 0x0E48; 0x0E41; 0x0E2A;
   0x0E07; 0x0E41; 0x0E14; 0x0E14; 0x0E2A; 0x0E48; 0x0E2D; 0x0E07; 0x0E1C;
   0x0E48; 0x0E32; 0x0E19; 0x0E15; 0x0E49; 0x0E19; 0x0E44; 0x0E21; 0x0E49;
   0x0E43; 0x0E19; 0x0E15; 0x0E2D; 0x0E19; 0x0E40; 0x0E0A; 0x0E49; 0x0E32;
   0x0E19; 0x0E35; 0x0E49; 0x0E40; 0x0E1B; 0x0E47; 0x0E19; 0x0E2A; 0x0E34;
   0x0E48; 0x0E07; 0x0E21; 0x0E2B; 0x0E31; 0x0E28; 0x0E08; 0x0E23; 0x0E23;
   0x0E22; 0x0E4C; 0x0E17; 0x0E35; 0x0E48; 0x0E41; 0x0E17; 0x0E49; 0x0E08;
   0x0E23; 0x0E34; 0x0E07]%N.

Definition unexpectedKindness_th : JSString :=
  [0x0E19; 0x0E49; 0x0E33; 0x0E43; 0x0E08; 0x0E17; 0x0E35; 0x0E48; 0x0E44;
   0x0E21; 0x0E48; 0x0E04; 0x0E32; 0x0E14; 0x0E04; 0x0E34; 0x0E14]%N.

Definition barista_th : JSString :=
  [0x0E1A; 0x0E32; 0x0E23; 0x0E34; 0x0E2A; 0x0E15; 0x0E49; 0x0E32; 0x0E08;
   0x0E33; 0x0E2D; 0x0E2D; 0x0E40; 0x0E14; 0x0E2D; 0x0E23; 0x0E4C; 0x0E1B;
   0x0E01; 0x0E15; 0x0E34; 0x0E02; 0x0E2D; 0x0E07; 0x0E09; 0x0E31; 0x0E19;
   0x0E44; 0x0E14; 0x0E49; 0x0E42; 0x0E14; 0x0E22; 0x0E44; 0x0E21; 0x0E48;
   0x0E15; 0x0E49; 0x0E2D; 0x0E07; 0x0E16; 0x0E32; 0x0E21; 0x0020; 0x0E19;
   0x0E49; 0x0E33; 0x0E43; 0x0E08; 0x0E40; 0x0E25; 0x0E47; 0x0E01; 0x0E46;
   0x0020; 0x0E17; 0x0E35; 0x0E48; 0x0E21; 0x0E35; 0x0E04; 0x0E27; 0x0E32;
   0x0E21; 0x0E2B; 0x0E21; 0x0E32; 0x0E22; 0x0E21; 0x0E32; 0x0E01]%N.

(** The initial value handed to [useState<GratitudeEntry[]>], built from
    the [language] of the first render. *)
Definition seededEntries (language : Language) : list GratitudeEntry :=
  let isEn := LanguageContext.Language_eqb language LanguageContext.en in
  [ GratitudeEntry.mk 1
      (if isEn then JS.lit "Morning Sunshine" else morningSunshine_th)
      (if isEn
       then JS.lit "The way the sunlight filtered through the trees this morning was pure magic."
       else sunlight_th)
      (JS.lit "2023-11-15") JS.undefined JS.undefined;
    GratitudeEntry.mk 2
      (if isEn then JS.lit "Unexpected Kindness" else unexpectedKindness_th)
      (if isEn
       then JS.lit "The barista remembered my usual order without asking. Small but meaningful connection."
       else barista_th)
      (JS.lit "2023-11-14") JS.undefined JS.undefined ].

Record State : Type := mkState {
  language : Language;
  entries : list GratitudeEntry;
  newEntry : NewEntry;
  isAdding : bool
}.

Definition initial : State :=
  mkState LanguageContext.initial (seededEntries LanguageContext.initial)
          emptyNewEntry false.

Definition setLanguage (l : Language) (s : State) : State :=
  mkState l (entries s) (newEntry s) (isAdding s).
Definition setEntries (es : list GratitudeEntry) (s : State) : State :=
  mkState (language s) es (newEntry s) (isAdding s).
Definition setNewEntry (d : NewEntry) (s : State) : State :=
  mkState (language s) (entries s) d (isAdding s).
Definition setIsAdding (b : bool) (s : State) : State :=
  mkState (language s) (entries s) (newEntry s) b.

Definition changeTitle (v : JSString) (s : State) : State :=
  setNewEntry (NewEntry.mk v (NewEntry.description (newEntry s))) s.

Definition changeDescription (v : JSString) (s : State) : State :=
  setNewEntry (NewEntry.mk (NewEntry.title (newEntry s)) v) s.

Definition clickCancel (s : State) : State := setIsAdding false s.

Definition clickAdd (s : State) : State := setIsAdding true s.

(** [{ ...newEntry, id: Date.now(), date: ...split('T')[0] }] *)
Definition mkEntry (now : Z) (iso : JSString) (d : NewEntry)
  : GratitudeEntry :=
  GratitudeEntry.mk now (NewEntry.title d) (NewEntry.description d)
                    (JS.splitHead (N_of_ascii "T") iso)
                    JS.undefined JS.undefined.

Definition handleSubmit (now : Z) (iso : JSString) (s : State)
  : State * option GratitudeEntry :=
  if JS.truthy (JS.trim (NewEntry.title (newEntry s)))
     && JS.truthy (JS.trim (NewEntry.description (newEntry s)))
  then
    let entry := mkEntry now iso (newEntry s) in
    (setIsAdding false
       (setNewEntry emptyNewEntry (setEntries (entry :: entries s) s)),
     Some entry)
  else (s, None).

Inductive Event : Type :=
| ToggleLanguage
| ClickAdd
| ChangeTitle (v : JSString)
| ChangeDescription (v : JSString)
| ClickCancel
| Submit (now : Z) (iso : JSString).

Definition step (ev : Event) (s : State) : State * option GratitudeEntry :=
  match ev with
  | ToggleLanguage =>
      (setLanguage (LanguageContext.toggleLanguage (language s)) s, None)
  | ClickAdd => (clickAdd s, None)
  | ChangeTitle v => (changeTitle v s, None)
  | ChangeDescription v => (changeDescription v s, None)
  | ClickCancel => (clickCancel s, None)
  | Submit now iso => handleSubmit now iso s
  end.

Definition listEntries (s : State) : list GratitudeEntry := entries s.

(** The [Date.now()] readings taken along a trace, in order. *)
Fixpoint clocks (evs : list Event) (s : State) : list Z :=
  match evs with
  | [] => []
  | ev :: rest =>
      match ev with
      | Submit now _ =>
          if JS.truthy (JS.trim (NewEntry.title (newEntry s)))
             && JS.truthy (JS.trim (NewEntry.description (newEntry s)))
          then [now] else []
      | _ => []
      end ++ clocks rest (fst (step ev s))
  end.

End AppSeeded.

(** The entry views of both variants: [entry.image && ...] and
    [entry.drawing && ...] decide whether an [img] is rendered. *)
Definition rendersImage (e : GratitudeEntry) : bool :=
  JS.truthyProp (GratitudeEntry.image e).


(** Ids of a store in creation order: the list is kept newest first. *)
Definition idsOldestFirst (es : list GratitudeEntry) : list Z :=
  rev (map GratitudeEntry.id es).

(** ** What the component renders

    The conditions of the JSX in both variants. *)

Module AppView.

(** [{isAdding && (<form ...>)}] *)
Definition showsForm (s : App.State) : bool := App.isAdding s.

(** [{entries.length === 0 && !isAdding && (...)}] *)
Definition showsEmptyState (s : App.State) : bool :=
  (List.length (App.entries s) =? 0)%nat && negb (App.isAdding s).

(** [{newEntry.image && (<img ... alt="Preview" />)}] *)
Definition showsPreview (s : App.State) : bool :=
  JS.truthyProp (App.NewEntry.image (App.newEntry s)).

End AppView.

Module AppSeededView.

Definition showsForm (s : AppSeeded.State) : bool := AppSeeded.isAdding s.

Definition showsEmptyState (s : AppSeeded.State) : bool :=
  (List.length (AppSeeded.entries s) =? 0)%nat && negb (AppSeeded.isAdding s).

End AppSeededView.

(** ** The calls handleMouseMove makes on the canvas context *)

Module Canvas.

Inductive Call : Type :=
| LineWidth (w : Z)
| LineCap (v : JSString)
| StrokeStyle (v : JSString)
| LineTo (x y : Z)
| Stroke
| BeginPath
| MoveTo (x y : Z).

(** [handleMouseMove]: [canvas] tells whether [canvasRef.current] is set,
    [ctx] whether [getContext('2d')] gave a context; [x] and [y] are
    [offsetX] and [offsetY] of the event. *)
Definition handleMouseMove (canvas ctx : bool) (x y : Z) (s : App.State)
  : list Call :=
  if negb (App.isDrawing s) || negb canvas then []
  else if ctx
       then [LineWidth 2; LineCap (JS.lit "round"); StrokeStyle (JS.lit "#000");
             LineTo x y; Stroke; BeginPath; MoveTo x y]
       else [].

(** The context calls made along a trace.  The ref holds the canvas while
    the form is rendered, and a canvas used with no other context type
    always has a 2d context. *)
Fixpoint calls (evs : list App.Event) (s : App.State) : list Call :=
  match evs with
  | [] => []
  | ev :: rest =>
      match ev with
      | App.MouseMove x y => handleMouseMove (App.isAdding s) true x y s
      | _ => []
      end ++ calls rest (fst (App.step ev s))
  end.

End Canvas.

(** ** Projections of traces and states *)

(** A string with a code unit that [trim] keeps. *)
Definition hasInk (s : JSString) : bool :=
  existsb (fun c => negb (JS.isWhiteSpace c)) s.

Definition inked (e : GratitudeEntry) : bool :=
  hasInk (GratitudeEntry.title e) && hasInk (GratitudeEntry.description e).

(** How often the language button is clicked in a trace. *)
Fixpoint toggles (evs : list App.Event) : nat :=
  match evs with
  | [] => O
  | App.ToggleLanguage :: rest => S (toggles rest)
  | _ :: rest => toggles rest
  end.

(** The last mouse-button event of a trace on the canvas: [Some true] for
    a mouse down, [Some false] for a mouse up. *)
Fixpoint lastButton (evs : list App.Event) : option bool :=
  match evs with
  | [] => None
  | ev :: rest =>
      match lastButton rest with
      | Some b => Some b
      | None =>
          match ev with
          | App.MouseDown => Some true
          | App.MouseUp => Some false
          | _ => None
          end
      end
  end.

Definition isLoadEnd (ev : App.Event) : bool :=
  match ev with App.LoadEnd _ _ => true | _ => false end.


Definition isTextEdit (ev : App.Event) : bool :=
  match ev with
  | App.ChangeTitle _ | App.ChangeDescription _ => true
  | _ => false
  end.

(** The first variant seen as the second: attachments dropped. *)
Definition forgetEntry (e : GratitudeEntry) : GratitudeEntry :=
  GratitudeEntry.mk (GratitudeEntry.id e) (GratitudeEntry.title e)
                    (GratitudeEntry.description e) (GratitudeEntry.date e)
                    JS.undefined JS.undefined.

Definition forgetDraft (d : App.NewEntry) : AppSeeded.NewEntry :=
  AppSeeded.NewEntry.mk (App.NewEntry.title d) (App.NewEntry.description d).

Definition forgetState (s : App.State) : AppSeeded.State :=
  AppSeeded.mkState (App.language s) (map forgetEntry (App.entries s))
                    (forgetDraft (App.newEntry s)) (App.isAdding s).

(** A state of the second variant with older entries behind its list. *)
Definition withOlder (older : list GratitudeEntry) (s : AppSeeded.State)
  : AppSeeded.State :=
  AppSeeded.setEntries (AppSeeded.entries s ++ older) s.

(** The events the two variants share; the others have no counterpart. *)
Definition projectEvent (ev : App.Event) : list AppSeeded.Event :=
  match ev with
  | App.ToggleLanguage => [AppSeeded.ToggleLanguage]
  | App.ClickAdd => [AppSeeded.ClickAdd]
  | App.ChangeTitle v => [AppSeeded.ChangeTitle v]
  | App.ChangeDescription v => [AppSeeded.ChangeDescription v]
  | App.ClickCancel => [AppSeeded.ClickCancel]
  | App.Submit now iso _ => [AppSeeded.Submit now iso]
  | App.ImageChange _ | App.LoadEnd _ _
  | App.MouseDown | App.MouseUp | App.MouseMove _ _ => []
  end.

Definition projectTrace (evs : list App.Event) : list AppSeeded.Event :=
  flat_map projectEvent evs.

(** ** Sample sessions

    Concrete states and traces at which the properties below are run. *)

(** A draft as the form leaves it after two inputs, white space around the
    title included. *)
Definition sampleDraftState : App.State :=
  run App.step
      [App.ClickAdd;
       App.ChangeTitle (JS.lit " Morning Sunshine ");
       App.ChangeDescription (JS.lit "Sunlight through trees.")]
      App.initial.

Definition sampleIso : JSString := JS.lit "2023-11-15T08:30:00.000Z".

Definition sampleSnapshot : option JSString :=
  Some (JS.lit "data:image/png;base64,iVBORw0KGgo=").

(** An open form whose title holds white space only. *)
Definition blankDraftState : App.State :=
  run App.step
      [App.ClickAdd;
       App.ChangeTitle (JS.lit "   ");
       App.ChangeDescription (JS.lit "x")]
      App.initial.

(** Three submissions, the second one rejected for its blank title. *)
Definition sampleTrace : list App.Event :=
  [App.ClickAdd;
   App.ChangeTitle (JS.lit "one"); App.ChangeDescription (JS.lit "first");
   App.Submit 1700000000000 sampleIso sampleSnapshot;
   App.ClickAdd;
   App.ChangeTitle (JS.lit " "); App.ChangeDescription (JS.lit "blank");
   App.Submit 1700000001000 sampleIso sampleSnapshot;
   App.ChangeTitle (JS.lit "two");
   App.Submit 1700000002000 sampleIso sampleSnapshot].

(** Two submissions that read the same clock value. *)
Definition sameClockTrace : list App.Event :=
  [App.ClickAdd;
   App.ChangeTitle (JS.lit "one"); App.ChangeDescription (JS.lit "first");
   App.Submit 1700000000000 sampleIso sampleSnapshot;
   App.ClickAdd;
   App.ChangeTitle (JS.lit "two"); App.ChangeDescription (JS.lit "second");
   App.Submit 1700000000000 sampleIso sampleSnapshot].

(** Two submissions with the system clock set back in between. *)
Definition clockSetBackTrace : list App.Event :=
  [App.ClickAdd;
   App.ChangeTitle (JS.lit "one"); App.ChangeDescription (JS.lit "first");
   App.Submit 1700000005000 sampleIso sampleSnapshot;
   App.ClickAdd;
   App.ChangeTitle (JS.lit "two"); App.ChangeDescription (JS.lit "second");
   App.Submit 1700000000000 sampleIso sampleSnapshot].

(** The state after the first submission of [sampleTrace] and the entry it
    built. *)
Definition oneEntryState : App.State :=
  run App.step (firstn 4 sampleTrace) App.initial.

Definition firstEntry : GratitudeEntry :=
  App.mkEntry 1700000000000 sampleIso sampleSnapshot
              (App.NewEntry.mk (JS.lit "one") (JS.lit "first") (JS.str []) []).

Definition seededTrace : list AppSeeded.Event :=
  [AppSeeded.ToggleLanguage; AppSeeded.ClickAdd;
   AppSeeded.ChangeTitle (JS.lit " three ");
   AppSeeded.ChangeDescription (JS.lit "third");
   AppSeeded.Submit 1700000003000 sampleIso].

Definition seededSecond : GratitudeEntry :=
  GratitudeEntry.mk 2 (JS.lit "Unexpected Kindness")
    (JS.lit "The barista remembered my usual order without asking. Small but meaningful connection.")
    (JS.lit "2023-11-14") JS.undefined JS.undefined.

(** The second variant's form with both fields filled in. *)
Definition seededDraftState : AppSeeded.State :=
  run AppSeeded.step (firstn 4 seededTrace) AppSeeded.initial.

(** A file is picked, then a title is typed while the read is under way. *)
Definition typedDuringRead : App.State :=
  run App.step
      [App.ClickAdd; App.ImageChange true; App.ChangeTitle (JS.lit "Sun")]
      App.initial.

Definition sampleDataUrl : JSString := JS.lit "data:image/png;base64,AAAA".

(** A file is picked between the two text inputs: its read is under way
    when the form is complete. *)
Definition submitDuringRead : list App.Event :=
  [App.ClickAdd; App.ChangeTitle (JS.lit "Sun"); App.ImageChange true;
   App.ChangeDescription (JS.lit "Warm")].

(** The form opened and two moves over the canvas with the button down. *)
Definition twoStrokes : list App.Event :=
  [App.ClickAdd; App.MouseDown; App.MouseMove 10 10; App.MouseMove 20 15].

(** * Properties *)

(** ** Strings *)

Example trim_example :
  JS.trim (JS.lit "  a b  ") = JS.lit "a b"
  /\ JS.trim ([0x09; 0xA0; 0x2028]%N) = []
  /\ JS.splitHead (N_of_ascii "T") (JS.lit "2023-11-15T08:30:00.000Z")
     = JS.lit "2023-11-15".
Proof. repeat split; reflexivity. Qed.

Lemma truthy_true_iff (s : JSString) : JS.truthy s = true <-> s <> [].
Proof. destruct s; simpl; split; congruence. Qed.

Lemma truthy_false_iff (s : JSString) : JS.truthy s = false <-> s = [].
Proof. destruct s; simpl; split; congruence. Qed.

Lemma trimStart_nil_iff (s : JSString) :
  JS.trimStart s = [] <-> forallb JS.isWhiteSpace s = true.
Proof.
  induction s as [|c r IH]; simpl.
  - tauto.
  - destruct (JS.isWhiteSpace c); simpl; [exact IH | split; discriminate].
Qed.

(** A string trims to nothing exactly when it is empty or all white space. *)
Lemma trim_nil_iff (s : JSString) :
  JS.trim s = [] <-> forallb JS.isWhiteSpace s = true.
Proof.
  unfold JS.trim, JS.trimEnd. split.
  - intros H. apply trimStart_nil_iff.
    destruct (JS.trimStart s) as [|c r] eqn:E; [reflexivity|].
    exfalso.
    assert (Hr : JS.trimStart (rev (c :: r)) = [])
      by (rewrite <- (rev_involutive (JS.trimStart _)), H; reflexivity).
    apply trimStart_nil_iff in Hr.
    rewrite forallb_forall in Hr.
    assert (Hc : JS.isWhiteSpace c = true)
      by (apply Hr, in_rev; rewrite rev_involutive; left; reflexivity).
    destruct s as [|c0 r0]; simpl in E; [discriminate|].
    revert E. clear - Hc. revert c0.
    induction r0 as [|c1 r1 IH]; intros c0; simpl.
    + destruct (JS.isWhiteSpace c0) eqn:E0; [discriminate|].
      intros [= -> _]. congruence.
    + destruct (JS.isWhiteSpace c0) eqn:E0; [apply IH|].
      intros [= -> _]. congruence.
  - intros H. apply trimStart_nil_iff in H. rewrite H. reflexivity.
Qed.

(** ** LanguageContext *)

(** C5: the selector has exactly the two values [en] and [th]; one toggle
    takes each value to the other, so a toggle always changes the value,
    and two toggles in a row give the original value back.  [toggleLanguage]
    is a total function: it has no failing case. *)
Theorem toggleLanguage_involutive :
  (forall l : Language, l = LanguageContext.en \/ l = LanguageContext.th)
  /\ LanguageContext.en <> LanguageContext.th
  /\ LanguageContext.toggleLanguage LanguageContext.en = LanguageContext.th
  /\ LanguageContext.toggleLanguage LanguageContext.th = LanguageContext.en
  /\ (forall l, LanguageContext.toggleLanguage l <> l)
  /\ (forall l, LanguageContext.toggleLanguage
                  (LanguageContext.toggleLanguage l) = l)
  /\ (forall s, App.language (fst (App.step App.ToggleLanguage s))
                = LanguageContext.toggleLanguage (App.language s))
  /\ (forall s, AppSeeded.language
                  (fst (AppSeeded.step AppSeeded.ToggleLanguage s))
                = LanguageContext.toggleLanguage (AppSeeded.language s)).
Proof.
  repeat split; try discriminate; try reflexivity;
    intros []; simpl; auto; discriminate.
Qed.

(** ** handleSubmit *)

Lemma handleSubmit_valid now iso snapshot s :
  JS.trim (App.NewEntry.title (App.newEntry s)) <> [] ->
  JS.trim (App.NewEntry.description (App.newEntry s)) <> [] ->
  App.handleSubmit now iso snapshot s
  = (App.setIsAdding false
       (App.setNewEntry App.emptyNewEntry
          (App.setEntries
             (App.mkEntry now iso snapshot (App.newEntry s) :: App.entries s)
             s)),
     Some (App.mkEntry now iso snapshot (App.newEntry s))).
Proof.
  intros Ht Hd. unfold App.handleSubmit.
  apply truthy_true_iff in Ht, Hd. rewrite Ht, Hd. reflexivity.
Qed.

Lemma handleSubmit_blank now iso snapshot s :
  JS.trim (App.NewEntry.title (App.newEntry s)) = []
  \/ JS.trim (App.NewEntry.description (App.newEntry s)) = [] ->
  App.handleSubmit now iso snapshot s = (s, None).
Proof.
  intros H. unfold App.handleSubmit.
  destruct H as [H|H]; rewrite H; simpl; [|rewrite andb_false_r]; reflexivity.
Qed.

Lemma seeded_handleSubmit_valid now iso s :
  JS.trim (AppSeeded.NewEntry.title (AppSeeded.newEntry s)) <> [] ->
  JS.trim (AppSeeded.NewEntry.description (AppSeeded.newEntry s)) <> [] ->
  AppSeeded.handleSubmit now iso s
  = (AppSeeded.setIsAdding false
       (AppSeeded.setNewEntry AppSeeded.emptyNewEntry
          (AppSeeded.setEntries
             (AppSeeded.mkEntry now iso (AppSeeded.newEntry s)
                :: AppSeeded.entries s) s)),
     Some (AppSeeded.mkEntry now iso (AppSeeded.newEntry s))).
Proof.
  intros Ht Hd. unfold AppSeeded.handleSubmit.
  apply truthy_true_iff in Ht, Hd. rewrite Ht, Hd. reflexivity.
Qed.

(** C1: when the draft's title and description are both non-empty after
    [trim], [handleSubmit] builds exactly one entry, the new list is that
    entry followed by the old list (one element longer), and the draft is
    replaced by the draft whose four fields are the empty string. *)
Theorem handleSubmit_accepts_valid_draft :
  forall now iso snapshot s,
    JS.trim (App.NewEntry.title (App.newEntry s)) <> [] ->
    JS.trim (App.NewEntry.description (App.newEntry s)) <> [] ->
    let s' := fst (App.handleSubmit now iso snapshot s) in
    exists entry,
      snd (App.handleSubmit now iso snapshot s) = Some entry
      /\ App.entries s' = entry :: App.entries s
      /\ List.length (App.entries s') = S (List.length (App.entries s))
      /\ App.NewEntry.title (App.newEntry s') = []
      /\ App.NewEntry.description (App.newEntry s') = []
      /\ App.NewEntry.image (App.newEntry s') = JS.str []
      /\ App.NewEntry.drawing (App.newEntry s') = [].
Proof.
  intros now iso snapshot s Ht Hd. cbv zeta.
  rewrite (handleSubmit_valid now iso snapshot s Ht Hd).
  eexists. repeat split; reflexivity.
Qed.

Lemma handleSubmit_accepts_valid_draft_witness :
  let s' := fst (App.handleSubmit 1700037000000 sampleIso sampleSnapshot
                                  sampleDraftState) in
  exists entry,
    snd (App.handleSubmit 1700037000000 sampleIso sampleSnapshot
                          sampleDraftState) = Some entry
    /\ App.entries s' = entry :: App.entries sampleDraftState
    /\ List.length (App.entries s') = S (List.length (App.entries sampleDraftState))
    /\ App.NewEntry.title (App.newEntry s') = []
    /\ App.NewEntry.description (App.newEntry s') = []
    /\ App.NewEntry.image (App.newEntry s') = JS.str []
    /\ App.NewEntry.drawing (App.newEntry s') = [].
Proof.
  apply (handleSubmit_accepts_valid_draft 1700037000000 sampleIso
           sampleSnapshot sampleDraftState);
    vm_compute; discriminate.
Defined.

(** C2: when the title or the description trims to the empty string,
    [handleSubmit] returns the state it was given and builds no entry: the
    list, the draft and every other hook are unchanged, so an open form
    stays open; the function has no other outcome to report. *)
Theorem handleSubmit_rejects_blank_draft :
  forall now iso snapshot s,
    JS.trim (App.NewEntry.title (App.newEntry s)) = []
    \/ JS.trim (App.NewEntry.description (App.newEntry s)) = [] ->
    let s' := fst (App.handleSubmit now iso snapshot s) in
    s' = s
    /\ snd (App.handleSubmit now iso snapshot s) = None
    /\ App.entries s' = App.entries s
    /\ List.length (App.entries s') = List.length (App.entries s)
    /\ App.newEntry s' = App.newEntry s
    /\ App.isAdding s' = App.isAdding s.
Proof.
  intros now iso snapshot s H. cbv zeta.
  rewrite (handleSubmit_blank now iso snapshot s H).
  repeat split; reflexivity.
Qed.

Lemma handleSubmit_rejects_blank_draft_witness :
  let s' := fst (App.handleSubmit 1700037000000 sampleIso sampleSnapshot
                                  blankDraftState) in
  s' = blankDraftState
  /\ snd (App.handleSubmit 1700037000000 sampleIso sampleSnapshot
                           blankDraftState) = None
  /\ App.entries s' = App.entries blankDraftState
  /\ List.length (App.entries s') = List.length (App.entries blankDraftState)
  /\ App.newEntry s' = App.newEntry blankDraftState
  /\ App.isAdding s' = App.isAdding blankDraftState.
Proof.
  apply (handleSubmit_rejects_blank_draft 1700037000000 sampleIso
           sampleSnapshot blankDraftState).
  left. vm_compute. reflexivity.
Defined.

(** ** The cancel button *)



(** ** The list along a trace *)

Lemma rev_created (o : option GratitudeEntry) : rev (created o) = created o.
Proof. destruct o; reflexivity. Qed.

Section TraceFacts.

Variables State Event : Type.
Variable step : Event -> State -> State * option GratitudeEntry.
Variable entries : State -> list GratitudeEntry.

Hypothesis step_prepends :
  forall ev s, entries (fst (step ev s)) = created (snd (step ev s)) ++ entries s.

Lemma run_entries (evs : list Event) :
  forall s, entries (run step evs s) = rev (produced step evs s) ++ entries s.
Proof.
  induction evs as [|ev rest IH]; intros s; simpl; [reflexivity|].
  rewrite IH, step_prepends, rev_app_distr, rev_created, app_assoc.
  reflexivity.
Qed.

Lemma run_entries_In (evs : list Event) (s : State) (e : GratitudeEntry) :
  In e (entries (run step evs s))
  <-> In e (entries s) \/ In e (produced step evs s).
Proof.
  rewrite run_entries, in_app_iff, <- in_rev. tauto.
Qed.

(** Counted from the oldest end, an entry keeps its place. *)
Lemma run_entries_nth (evs : list Event) (s : State) (i : nat)
      (e : GratitudeEntry) :
  nth_error (rev (entries s)) i = Some e ->
  nth_error (rev (entries (run step evs s))) i = Some e.
Proof.
  intros H. rewrite run_entries, rev_app_distr.
  rewrite nth_error_app1; [exact H|].
  apply nth_error_Some. congruence.
Qed.

End TraceFacts.

Lemma App_step_prepends (ev : App.Event) (s : App.State) :
  App.entries (fst (App.step ev s))
  = created (snd (App.step ev s)) ++ App.entries s.
Proof.
  destruct ev; simpl; try reflexivity.
  - destruct file; reflexivity.
  - unfold App.onloadend. destruct (nth_error _ _); reflexivity.
  - unfold App.handleSubmit. destruct (_ && _); reflexivity.
Qed.

Lemma AppSeeded_step_prepends (ev : AppSeeded.Event) (s : AppSeeded.State) :
  AppSeeded.entries (fst (AppSeeded.step ev s))
  = created (snd (AppSeeded.step ev s)) ++ AppSeeded.entries s.
Proof.
  destruct ev; simpl; try reflexivity.
  unfold AppSeeded.handleSubmit. destruct (_ && _); reflexivity.
Qed.

(** Only a submission whose check passes builds an entry. *)
Lemma App_step_builds (ev : App.Event) (s : App.State) :
  snd (App.step ev s)
  = match ev with
    | App.Submit now iso snapshot =>
        if JS.truthy (JS.trim (App.NewEntry.title (App.newEntry s)))
           && JS.truthy (JS.trim (App.NewEntry.description (App.newEntry s)))
        then Some (App.mkEntry now iso snapshot (App.newEntry s))
        else None
    | _ => None
    end.
Proof.
  destruct ev; try reflexivity.
  simpl. unfold App.handleSubmit. destruct (_ && _); reflexivity.
Qed.

Lemma AppSeeded_step_builds (ev : AppSeeded.Event) (s : AppSeeded.State) :
  snd (AppSeeded.step ev s)
  = match ev with
    | AppSeeded.Submit now iso =>
        if JS.truthy (JS.trim (AppSeeded.NewEntry.title (AppSeeded.newEntry s)))
           && JS.truthy
                (JS.trim (AppSeeded.NewEntry.description (AppSeeded.newEntry s)))
        then Some (AppSeeded.mkEntry now iso (AppSeeded.newEntry s))
        else None
    | _ => None
    end.
Proof.
  destruct ev; try reflexivity.
  simpl. unfold AppSeeded.handleSubmit. destruct (_ && _); reflexivity.
Qed.

(** C4: whatever the events, the rendered list is the entries built by the
    submissions of the trace, latest first, in front of the list the trace
    started from, which is empty in the first variant; and a single event
    never does more to the list than put the entry it built in front. *)
Theorem listEntries_newest_first :
  (forall evs s,
      App.listEntries (run App.step evs s)
      = rev (produced App.step evs s) ++ App.listEntries s)
  /\ (forall evs,
         App.listEntries (run App.step evs App.initial)
         = rev (produced App.step evs App.initial))
  /\ (forall ev s,
         App.listEntries (fst (App.step ev s))
         = created (snd (App.step ev s)) ++ App.listEntries s)
  /\ (forall evs s,
         AppSeeded.listEntries (run AppSeeded.step evs s)
         = rev (produced AppSeeded.step evs s) ++ AppSeeded.listEntries s)
  /\ (forall ev s,
         AppSeeded.listEntries (fst (AppSeeded.step ev s))
         = created (snd (AppSeeded.step ev s)) ++ AppSeeded.listEntries s).
Proof.
  unfold App.listEntries, AppSeeded.listEntries.
  split; [|split; [|split; [|split]]].
  - intros evs s. apply (run_entries _ _ App.step App.entries App_step_prepends).
  - intros evs. rewrite (run_entries _ _ App.step App.entries App_step_prepends).
    apply app_nil_r.
  - exact App_step_prepends.
  - intros evs s. apply (run_entries _ _ AppSeeded.step AppSeeded.entries AppSeeded_step_prepends).
  - exact AppSeeded_step_prepends.
Qed.

Example sampleTrace_titles :
  map GratitudeEntry.title (App.listEntries (run App.step sampleTrace App.initial))
  = [JS.lit "two"; JS.lit "one"]
  /\ map GratitudeEntry.id (produced App.step sampleTrace App.initial)
     = [1700000000000; 1700000002000]%Z.
Proof. split; reflexivity. Qed.

(** ** Entries are only ever added *)

(** C7, as the code has it: in both variants an event leaves every entry
    of the list in place and unchanged (counted from the oldest end) and
    adds at most the entry it built; so after any trace the list holds the
    entries it started with and the entries built by the submissions of
    the trace, nothing else.  The first variant starts with no entry, the
    second with the two seeded ones. *)
Theorem entries_only_added :
  forall (evs : list App.Event) (s : App.State)
         (evs2 : list AppSeeded.Event) (s2 : AppSeeded.State)
         (i i2 : nat) (e e2 : GratitudeEntry),
    nth_error (rev (App.entries s)) i = Some e ->
    nth_error (rev (AppSeeded.entries s2)) i2 = Some e2 ->
    nth_error (rev (App.entries (run App.step evs s))) i = Some e
    /\ nth_error (rev (AppSeeded.entries (run AppSeeded.step evs2 s2))) i2
       = Some e2
    /\ (forall x, In x (App.entries (run App.step evs s))
                  <-> In x (App.entries s) \/ In x (produced App.step evs s))
    /\ (forall x, In x (AppSeeded.entries (run AppSeeded.step evs2 s2))
                  <-> In x (AppSeeded.entries s2)
                      \/ In x (produced AppSeeded.step evs2 s2))
    /\ (forall x, In x (App.entries (run App.step evs App.initial))
                  <-> In x (produced App.step evs App.initial))
    /\ (forall x, In x (AppSeeded.entries (run AppSeeded.step evs2 AppSeeded.initial))
                  <-> In x (AppSeeded.seededEntries LanguageContext.en)
                      \/ In x (produced AppSeeded.step evs2 AppSeeded.initial)).
Proof.
  intros evs s evs2 s2 i i2 e e2 H H2.
  split; [|split; [|split; [|split; [|split]]]].
  - exact (run_entries_nth _ _ App.step App.entries App_step_prepends evs s i e H).
  - exact (run_entries_nth _ _ AppSeeded.step AppSeeded.entries AppSeeded_step_prepends evs2 s2 i2 e2 H2).
  - intros x. apply (run_entries_In _ _ App.step App.entries App_step_prepends).
  - intros x. apply (run_entries_In _ _ AppSeeded.step AppSeeded.entries AppSeeded_step_prepends).
  - intros x. rewrite (run_entries_In _ _ App.step App.entries App_step_prepends). simpl. tauto.
  - intros x. rewrite (run_entries_In _ _ AppSeeded.step AppSeeded.entries AppSeeded_step_prepends).
    reflexivity.
Qed.

(** C7 fails as stated on the second variant: before any event its list
    holds two entries and no submission has built any. *)
Lemma seeded_entries_not_submitted :
  List.length (AppSeeded.entries (run AppSeeded.step [] AppSeeded.initial)) = 2%nat
  /\ produced AppSeeded.step [] AppSeeded.initial = []
  /\ exists e, In e (AppSeeded.entries (run AppSeeded.step [] AppSeeded.initial))
               /\ ~ In e (produced AppSeeded.step [] AppSeeded.initial).
Proof.
  split; [reflexivity|]. split; [reflexivity|].
  eexists. split; [left; reflexivity | intros []].
Qed.

(** ** Identifiers *)

Lemma StronglySorted_lt_NoDup (l : list Z) :
  StronglySorted Z.lt l -> NoDup l.
Proof.
  induction 1 as [|x l Hs IH Hf]; constructor; [|assumption].
  intros Hin. rewrite Forall_forall in Hf. specialize (Hf _ Hin). lia.
Qed.

Lemma NoDup_rev_iff (l : list Z) : NoDup (rev l) <-> NoDup l.
Proof.
  split; intros H; apply NoDup_rev in H; [rewrite rev_involutive in H|];
    exact H.
Qed.

(** The ids of the entries built along a trace are the clock readings
    taken along it. *)
Lemma App_produced_ids (evs : list App.Event) :
  forall s, map GratitudeEntry.id (produced App.step evs s) = App.clocks evs s.
Proof.
  induction evs as [|ev rest IH]; intros s; simpl; [reflexivity|].
  rewrite map_app, IH, App_step_builds. f_equal.
  destruct ev; try reflexivity. destruct (_ && _); reflexivity.
Qed.

Lemma AppSeeded_produced_ids (evs : list AppSeeded.Event) :
  forall s, map GratitudeEntry.id (produced AppSeeded.step evs s)
            = AppSeeded.clocks evs s.
Proof.
  induction evs as [|ev rest IH]; intros s; simpl; [reflexivity|].
  rewrite map_app, IH, AppSeeded_step_builds. f_equal.
  destruct ev; try reflexivity. destruct (_ && _); reflexivity.
Qed.

Section IdFacts.

Variables State Event : Type.
Variable step : Event -> State -> State * option GratitudeEntry.
Variable entries : State -> list GratitudeEntry.

Hypothesis step_prepends :
  forall ev s, entries (fst (step ev s)) = created (snd (step ev s)) ++ entries s.

Lemma run_ids (evs : list Event) (s : State) :
  idsOldestFirst (entries (run step evs s))
  = idsOldestFirst (entries s)
    ++ map GratitudeEntry.id (produced step evs s).
Proof.
  unfold idsOldestFirst.
  rewrite (run_entries _ _ step entries step_prepends), map_app,
    rev_app_distr, map_rev, rev_involutive.
  reflexivity.
Qed.

End IdFacts.

(** C6, as the code has it: an entry built by a submission has as id the
    [Date.now()] reading taken at that submission, in both variants, and
    nothing else is done about ids.  In creation order the ids of the list
    are therefore the ids it started with followed by the clock readings
    of the accepted submissions: none in front of them in the first
    variant, the seeded 2 and 1 in the second.  They are non-decreasing
    exactly when that sequence is, free of repetition exactly when that
    sequence is, and both when it is strictly increasing. *)
Theorem ids_follow_the_clock :
  forall (evs : list App.Event) (s : App.State)
         (evs2 : list AppSeeded.Event) (s2 : AppSeeded.State),
    map GratitudeEntry.id (produced App.step evs s) = App.clocks evs s
    /\ map GratitudeEntry.id (produced AppSeeded.step evs2 s2)
       = AppSeeded.clocks evs2 s2
    /\ idsOldestFirst (App.entries (run App.step evs s))
       = idsOldestFirst (App.entries s) ++ App.clocks evs s
    /\ idsOldestFirst (App.entries (run App.step evs App.initial))
       = App.clocks evs App.initial
    /\ idsOldestFirst
         (AppSeeded.entries (run AppSeeded.step evs2 AppSeeded.initial))
       = [2; 1]%Z ++ AppSeeded.clocks evs2 AppSeeded.initial
    /\ (StronglySorted Z.le (idsOldestFirst (App.entries (run App.step evs s)))
        <-> StronglySorted Z.le
              (idsOldestFirst (App.entries s) ++ App.clocks evs s))
    /\ (NoDup (map GratitudeEntry.id (App.entries (run App.step evs s)))
        <-> NoDup (idsOldestFirst (App.entries s) ++ App.clocks evs s))
    /\ (StronglySorted Z.lt (idsOldestFirst (App.entries s) ++ App.clocks evs s)
        -> StronglySorted Z.lt
             (idsOldestFirst (App.entries (run App.step evs s)))
           /\ NoDup (map GratitudeEntry.id
                         (App.entries (run App.step evs s)))).
Proof.
  intros evs s evs2 s2.
  assert (E : forall s0, idsOldestFirst (App.entries (run App.step evs s0))
                         = idsOldestFirst (App.entries s0) ++ App.clocks evs s0)
    by (intros s0;
        rewrite (run_ids _ _ App.step App.entries App_step_prepends),
          App_produced_ids; reflexivity).
  assert (N : NoDup (map GratitudeEntry.id (App.entries (run App.step evs s)))
              <-> NoDup (idsOldestFirst (App.entries s) ++ App.clocks evs s))
    by (rewrite <- E; unfold idsOldestFirst; symmetry; apply NoDup_rev_iff).
  split; [apply App_produced_ids|].
  split; [apply AppSeeded_produced_ids|].
  split; [apply E|].
  split; [apply (E App.initial)|].
  split.
  { rewrite (run_ids _ _ AppSeeded.step AppSeeded.entries
                     AppSeeded_step_prepends), AppSeeded_produced_ids.
    reflexivity. }
  split; [rewrite E; reflexivity|].
  split; [exact N|].
  intros H. split; [rewrite E; exact H|].
  apply N, StronglySorted_lt_NoDup, H.
Qed.

Lemma ids_follow_the_clock_witness :
  App.clocks sampleTrace App.initial = [1700000000000; 1700000002000]%Z
  /\ StronglySorted Z.lt
       (idsOldestFirst (App.entries (run App.step sampleTrace App.initial)))
  /\ NoDup (map GratitudeEntry.id
                (App.entries (run App.step sampleTrace App.initial))).
Proof.
  split; [reflexivity|].
  apply (ids_follow_the_clock sampleTrace App.initial [] AppSeeded.initial).
  vm_compute.
  repeat (constructor; [|repeat constructor; lia]). constructor.
Defined.

(** C6 fails as stated: two submissions that read the same clock value
    leave two entries with one id; a clock set back between two
    submissions leaves ids that decrease in creation order; and the seeded
    entries of the second variant carry the literals 1 and 2, read from no
    clock and, newest first, in increasing order. *)
Lemma ids_not_unique_nor_monotone :
  (map GratitudeEntry.id (App.entries (run App.step sameClockTrace App.initial))
   = [1700000000000; 1700000000000]%Z
   /\ ~ NoDup (map GratitudeEntry.id
                   (App.entries (run App.step sameClockTrace App.initial))))
  /\ (idsOldestFirst (App.entries (run App.step clockSetBackTrace App.initial))
      = [1700000005000; 1700000000000]%Z
      /\ ~ StronglySorted Z.le
             (idsOldestFirst
                (App.entries (run App.step clockSetBackTrace App.initial))))
  /\ (map GratitudeEntry.id
          (AppSeeded.entries (run AppSeeded.step [] AppSeeded.initial))
      = [1; 2]%Z
      /\ ~ StronglySorted Z.le
             (idsOldestFirst
                (AppSeeded.entries (run AppSeeded.step [] AppSeeded.initial)))).
Proof.
  split; [|split]; (split; [reflexivity|]).
  - change (~ NoDup [1700000000000; 1700000000000]%Z).
    intros H. inversion H as [|? ? Hn _]; subst. apply Hn. left. reflexivity.
  - change (~ StronglySorted Z.le [1700000005000; 1700000000000]%Z).
    intros H. inversion H as [|? ? _ Hf]; subst.
    inversion Hf; subst. lia.
  - change (~ StronglySorted Z.le [2; 1]%Z).
    intros H. inversion H as [|? ? _ Hf]; subst.
    inversion Hf; subst. lia.
Qed.

Lemma entries_only_added_witness :
  nth_error (rev (App.entries (run App.step (skipn 4 sampleTrace) oneEntryState)))
            0 = Some firstEntry
  /\ nth_error
       (rev (AppSeeded.entries (run AppSeeded.step seededTrace AppSeeded.initial)))
       0 = Some seededSecond.
Proof.
  destruct (entries_only_added (skipn 4 sampleTrace) oneEntryState
                               seededTrace AppSeeded.initial
                               0 0 firstEntry seededSecond)
    as (H1 & H2 & _); [reflexivity | reflexivity |].
  split; assumption.
Defined.

(** ** What a submission stores *)





(** C10: the entry built by [handleSubmit] has the draft's title and
    description as they are, white space included, in both variants; the
    trimmed strings are used for the check only. *)
Theorem handleSubmit_stores_untrimmed :
  forall now iso snapshot (s : App.State) (s2 : AppSeeded.State),
    JS.trim (App.NewEntry.title (App.newEntry s)) <> [] ->
    JS.trim (App.NewEntry.description (App.newEntry s)) <> [] ->
    JS.trim (AppSeeded.NewEntry.title (AppSeeded.newEntry s2)) <> [] ->
    JS.trim (AppSeeded.NewEntry.description (AppSeeded.newEntry s2)) <> [] ->
    exists entry entry2,
      snd (App.handleSubmit now iso snapshot s) = Some entry
      /\ snd (AppSeeded.handleSubmit now iso s2) = Some entry2
      /\ GratitudeEntry.title entry = App.NewEntry.title (App.newEntry s)
      /\ GratitudeEntry.description entry
         = App.NewEntry.description (App.newEntry s)
      /\ GratitudeEntry.title entry2
         = AppSeeded.NewEntry.title (AppSeeded.newEntry s2)
      /\ GratitudeEntry.description entry2
         = AppSeeded.NewEntry.description (AppSeeded.newEntry s2).
Proof.
  intros now iso snapshot s s2 Ht Hd Ht2 Hd2.
  rewrite (handleSubmit_valid now iso snapshot s Ht Hd).
  rewrite (seeded_handleSubmit_valid now iso s2 Ht2 Hd2).
  do 2 eexists. repeat split; reflexivity.
Qed.

Lemma handleSubmit_stores_untrimmed_witness :
  exists entry entry2,
    snd (App.handleSubmit 1700037000000 sampleIso sampleSnapshot
                          sampleDraftState) = Some entry
    /\ snd (AppSeeded.handleSubmit 1700037000000 sampleIso seededDraftState)
       = Some entry2
    /\ GratitudeEntry.title entry
       = App.NewEntry.title (App.newEntry sampleDraftState)
    /\ GratitudeEntry.description entry
       = App.NewEntry.description (App.newEntry sampleDraftState)
    /\ GratitudeEntry.title entry2
       = AppSeeded.NewEntry.title (AppSeeded.newEntry seededDraftState)
    /\ GratitudeEntry.description entry2
       = AppSeeded.NewEntry.description (AppSeeded.newEntry seededDraftState).
Proof.
  apply (handleSubmit_stores_untrimmed 1700037000000 sampleIso
           sampleSnapshot sampleDraftState seededDraftState);
    vm_compute; discriminate.
Defined.

Example stored_title_keeps_white_space :
  map GratitudeEntry.title
      (created (snd (App.handleSubmit 1700037000000 sampleIso sampleSnapshot
                                      sampleDraftState)))
  = [JS.lit " Morning Sunshine "]
  /\ JS.trim (JS.lit " Morning Sunshine ") = JS.lit "Morning Sunshine".
Proof. split; reflexivity. Qed.

(** ** Draft updates *)

(** The two text inputs overwrite their own field of the current draft. *)
Lemma changeTitle_frame (v : JSString) (s : App.State) :
  let d := App.newEntry (App.changeTitle v s) in
  App.NewEntry.title d = v
  /\ App.NewEntry.description d = App.NewEntry.description (App.newEntry s)
  /\ App.NewEntry.image d = App.NewEntry.image (App.newEntry s)
  /\ App.NewEntry.drawing d = App.NewEntry.drawing (App.newEntry s).
Proof. repeat split. Qed.

Lemma changeDescription_frame (v : JSString) (s : App.State) :
  let d := App.newEntry (App.changeDescription v s) in
  App.NewEntry.title d = App.NewEntry.title (App.newEntry s)
  /\ App.NewEntry.description d = v
  /\ App.NewEntry.image d = App.NewEntry.image (App.newEntry s)
  /\ App.NewEntry.drawing d = App.NewEntry.drawing (App.newEntry s).
Proof. repeat split. Qed.

(** A finished read installs the draft its callback closed over, with the
    image set: the other fields are those of the time the file was picked. *)
Lemma onloadend_installs_captured (k : nat) (result : JS.Value)
      (s : App.State) (d : App.NewEntry) :
  nth_error (App.readers s) k = Some d ->
  App.newEntry (App.onloadend k result s)
  = App.NewEntry.mk (App.NewEntry.title d) (App.NewEntry.description d)
                    result (App.NewEntry.drawing d).
Proof. intros H. unfold App.onloadend. rewrite H. reflexivity. Qed.

(** C9 at its failing input: a title typed between the file selection and
    the end of the read is in the draft before [onloadend] runs and gone
    after it, because the callback spreads the draft of the render in
    which the file was picked. *)
Theorem onloadend_drops_title_typed_during_read :
  let after :=
    fst (App.step (App.LoadEnd 0 (JS.str sampleDataUrl)) typedDuringRead) in
  App.NewEntry.title (App.newEntry typedDuringRead) = JS.lit "Sun"
  /\ App.NewEntry.title (App.newEntry after) = []
  /\ App.NewEntry.image (App.newEntry after) = JS.str sampleDataUrl
  /\ App.NewEntry.title (App.newEntry after)
     <> App.NewEntry.title (App.newEntry typedDuringRead).
Proof. vm_compute. repeat split; discriminate. Qed.

(** ** The check of handleSubmit *)

Lemma hasInk_forallb (s : JSString) :
  hasInk s = negb (forallb JS.isWhiteSpace s).
Proof.
  unfold hasInk. induction s as [|c r IH]; simpl; [reflexivity|].
  rewrite IH. destruct (JS.isWhiteSpace c); reflexivity.
Qed.

Lemma hasInk_trim (s : JSString) : hasInk s = JS.truthy (JS.trim s).
Proof.
  rewrite hasInk_forallb.
  destruct (forallb JS.isWhiteSpace s) eqn:E; simpl.
  - apply trim_nil_iff in E. rewrite E. reflexivity.
  - symmetry. apply truthy_true_iff. intros H.
    apply trim_nil_iff in H. congruence.
Qed.


Lemma App_step_builds_inked (ev : App.Event) (s : App.State)
      (e : GratitudeEntry) :
  snd (App.step ev s) = Some e -> inked e = true.
Proof.
  rewrite App_step_builds. destruct ev; try discriminate.
  destruct (_ && _) eqn:E; [|discriminate].
  intros [= <-]. unfold inked. simpl. rewrite !hasInk_trim. exact E.
Qed.

Lemma AppSeeded_step_builds_inked (ev : AppSeeded.Event)
      (s : AppSeeded.State) (e : GratitudeEntry) :
  snd (AppSeeded.step ev s) = Some e -> inked e = true.
Proof.
  rewrite AppSeeded_step_builds. destruct ev; try discriminate.
  destruct (_ && _) eqn:E; [|discriminate].
  intros [= <-]. unfold inked. simpl. rewrite !hasInk_trim. exact E.
Qed.

Section ProducedFacts.

Variables State Event : Type.
Variable step : Event -> State -> State * option GratitudeEntry.
Variable P : GratitudeEntry -> Prop.

Hypothesis step_builds_P :
  forall ev s e, snd (step ev s) = Some e -> P e.

Lemma produced_Forall (evs : list Event) :
  forall s, Forall P (produced step evs s).
Proof.
  induction evs as [|ev rest IH]; intros s; simpl; [constructor|].
  apply Forall_app. split; [|apply IH].
  destruct (snd (step ev s)) as [e|] eqn:E; simpl; [|constructor].
  constructor; [|constructor]. exact (step_builds_P ev s e E).
Qed.

End ProducedFacts.

(** X2: whatever the events, every entry of the list has a title and a
    description that are not blank, in both variants (the seeded entries
    of the second variant included). *)
Theorem stored_entries_are_inked :
  forall (evs : list App.Event) (evs2 : list AppSeeded.Event),
    Forall (fun e => inked e = true)
           (App.entries (run App.step evs App.initial))
    /\ Forall (fun e => inked e = true)
              (AppSeeded.entries (run AppSeeded.step evs2 AppSeeded.initial)).
Proof.
  intros evs evs2. split.
  - rewrite (run_entries _ _ App.step App.entries App_step_prepends).
    apply Forall_app. split; [|constructor].
    apply Forall_rev.
    apply (produced_Forall _ _ App.step _ App_step_builds_inked).
  - rewrite (run_entries _ _ AppSeeded.step AppSeeded.entries
                         AppSeeded_step_prepends).
    apply Forall_app. split.
    + apply Forall_rev.
      apply (produced_Forall _ _ AppSeeded.step _ AppSeeded_step_builds_inked).
    + repeat constructor.
Qed.

(** X3: a second submission right after an accepted one is rejected,
    whatever the clock and the canvas: the draft was reset, so one filled
    form gives one entry. *)
Theorem resubmission_is_rejected :
  forall now iso snapshot now' iso' snapshot' s,
    JS.trim (App.NewEntry.title (App.newEntry s)) <> [] ->
    JS.trim (App.NewEntry.description (App.newEntry s)) <> [] ->
    App.handleSubmit now' iso' snapshot'
                     (fst (App.handleSubmit now iso snapshot s))
    = (fst (App.handleSubmit now iso snapshot s), None)
    /\ App.entries (fst (App.handleSubmit now iso snapshot s))
       = App.mkEntry now iso snapshot (App.newEntry s) :: App.entries s.
Proof.
  intros now iso snapshot now' iso' snapshot' s Ht Hd.
  rewrite (handleSubmit_valid now iso snapshot s Ht Hd). simpl.
  split; reflexivity.
Qed.

Lemma resubmission_is_rejected_witness :
  App.handleSubmit 1700037000001 sampleIso None
                   (fst (App.handleSubmit 1700037000000 sampleIso
                                          sampleSnapshot sampleDraftState))
  = (fst (App.handleSubmit 1700037000000 sampleIso sampleSnapshot
                           sampleDraftState), None)
  /\ App.entries (fst (App.handleSubmit 1700037000000 sampleIso
                                        sampleSnapshot sampleDraftState))
     = App.mkEntry 1700037000000 sampleIso sampleSnapshot
                   (App.newEntry sampleDraftState)
       :: App.entries sampleDraftState.
Proof.
  apply (resubmission_is_rejected 1700037000000 sampleIso sampleSnapshot
           1700037000001 sampleIso None sampleDraftState);
    vm_compute; discriminate.
Defined.

(** ** The date stamp *)

Lemma splitHead_no_sep (sep : N) (s : JSString) :
  ~ In sep (JS.splitHead sep s).
Proof.
  induction s as [|c r IH]; simpl; [tauto|].
  destruct (N.eqb_spec c sep); simpl; [tauto|].
  intros [H|H]; [congruence | exact (IH H)].
Qed.

Lemma splitHead_prefix (sep : N) (s : JSString) :
  exists rest, s = JS.splitHead sep s ++ rest.
Proof.
  induction s as [|c r [rest IH]]; simpl; [exists []; reflexivity|].
  destruct (N.eqb_spec c sep).
  - exists (c :: r). reflexivity.
  - exists rest. simpl. congruence.
Qed.

Lemma splitHead_app (sep : N) (a b : JSString) :
  ~ In sep a -> JS.splitHead sep (a ++ sep :: b) = a.
Proof.
  induction a as [|c r IH]; simpl; intros H.
  - rewrite N.eqb_refl. reflexivity.
  - destruct (N.eqb_spec c sep); [tauto|].
    rewrite IH; [reflexivity | tauto].
Qed.

(** X4: when the clock's ISO string is a day part without [T], then [T],
    then a time part, the date of the entry built is the day part, in both
    variants; whatever the string, the date holds no [T] and is the
    beginning of the string. *)
Theorem entry_date_is_day_part :
  forall now snapshot d d2 (day time : JSString),
    ~ In (N_of_ascii "T") day ->
    let iso := day ++ N_of_ascii "T" :: time in
    GratitudeEntry.date (App.mkEntry now iso snapshot d) = day
    /\ GratitudeEntry.date (AppSeeded.mkEntry now iso d2) = day
    /\ (forall iso', ~ In (N_of_ascii "T")
                         (GratitudeEntry.date (App.mkEntry now iso' snapshot d)))
    /\ (forall iso', exists rest,
           iso' = GratitudeEntry.date (App.mkEntry now iso' snapshot d) ++ rest).
Proof.
  intros now snapshot d d2 day time H. cbv zeta.
  unfold App.mkEntry, AppSeeded.mkEntry. cbn [GratitudeEntry.date].
  rewrite (splitHead_app _ day time H).
  repeat split.
  - intros iso'. apply splitHead_no_sep.
  - intros iso'. apply splitHead_prefix.
Qed.

Lemma entry_date_is_day_part_witness :
  let iso := JS.lit "2023-11-15" ++ N_of_ascii "T" :: JS.lit "08:30:00.000Z" in
  GratitudeEntry.date
    (App.mkEntry 1700037000000 iso sampleSnapshot App.emptyNewEntry)
  = JS.lit "2023-11-15"
  /\ GratitudeEntry.date
       (AppSeeded.mkEntry 1700037000000 iso AppSeeded.emptyNewEntry)
     = JS.lit "2023-11-15"
  /\ (forall iso', ~ In (N_of_ascii "T")
                       (GratitudeEntry.date
                          (App.mkEntry 1700037000000 iso' sampleSnapshot
                                       App.emptyNewEntry)))
  /\ (forall iso', exists rest,
         iso' = GratitudeEntry.date
                  (App.mkEntry 1700037000000 iso' sampleSnapshot
                               App.emptyNewEntry) ++ rest).
Proof.
  apply (entry_date_is_day_part 1700037000000 sampleSnapshot
           App.emptyNewEntry AppSeeded.emptyNewEntry
           (JS.lit "2023-11-15") (JS.lit "08:30:00.000Z")).
  vm_compute. intros H.
  repeat (destruct H as [H|H]; [discriminate|]). exact H.
Defined.

(** ** The image of the draft *)

Lemma App_step_no_image (ev : App.Event) (s : App.State) :
  isLoadEnd ev = false ->
  App.NewEntry.image (App.newEntry s) = JS.str [] ->
  Forall (fun d => App.NewEntry.image d = JS.str []) (App.readers s) ->
  App.NewEntry.image (App.newEntry (fst (App.step ev s))) = JS.str []
  /\ Forall (fun d => App.NewEntry.image d = JS.str [])
            (App.readers (fst (App.step ev s)))
  /\ Forall (fun e => GratitudeEntry.image e = JS.str [])
            (created (snd (App.step ev s))).
Proof.
  intros Hev Hd Hr.
  destruct ev; try discriminate; simpl;
    try (repeat split; (assumption || constructor)).
  - destruct file; simpl; repeat split; try assumption; try constructor.
    apply Forall_app. split; [assumption|]. constructor; [assumption|constructor].
  - unfold App.handleSubmit. destruct (_ && _); simpl.
    + repeat split; try assumption. constructor; [|constructor].
      simpl. rewrite Hd. reflexivity.
    + repeat split; try assumption. constructor.
Qed.

Lemma App_run_no_image (evs : list App.Event) :
  forall s,
    existsb isLoadEnd evs = false ->
    App.NewEntry.image (App.newEntry s) = JS.str [] ->
    Forall (fun d => App.NewEntry.image d = JS.str []) (App.readers s) ->
    App.NewEntry.image (App.newEntry (run App.step evs s)) = JS.str []
    /\ Forall (fun e => GratitudeEntry.image e = JS.str [])
              (produced App.step evs s).
Proof.
  induction evs as [|ev rest IH]; intros s Hev Hd Hr; simpl in *.
  - split; [assumption | constructor].
  - apply orb_false_iff in Hev. destruct Hev as [Hev Hrest].
    destruct (App_step_no_image ev s Hev Hd Hr) as (Hd' & Hr' & Hc).
    destruct (IH _ Hrest Hd' Hr') as [Hfin Hp].
    split; [assumption|]. apply Forall_app. split; assumption.
Qed.

(** X5: as long as no file read has come to its end, the draft has no
    image, no preview is shown, and every entry saved carries the empty
    string as its image, for which the entry view renders no photo:
    picking a file does not by itself attach anything. *)
Theorem no_image_before_a_read_ends :
  forall evs : list App.Event,
    existsb isLoadEnd evs = false ->
    let s := run App.step evs App.initial in
    App.NewEntry.image (App.newEntry s) = JS.str []
    /\ AppView.showsPreview s = false
    /\ Forall (fun e => GratitudeEntry.image e = JS.str []
                        /\ rendersImage e = false)
              (App.entries s).
Proof.
  intros evs Hev. cbv zeta.
  destruct (App_run_no_image evs App.initial Hev eq_refl (Forall_nil _))
    as [Hd Hp].
  split; [assumption|]. split.
  - unfold AppView.showsPreview. rewrite Hd. reflexivity.
  - rewrite (run_entries _ _ App.step App.entries App_step_prepends).
    simpl. rewrite app_nil_r. apply Forall_rev.
    eapply Forall_impl; [|exact Hp].
    intros e He. split; [assumption|].
    unfold rendersImage. rewrite He. reflexivity.
Qed.

Lemma no_image_before_a_read_ends_witness :
  let s := run App.step (submitDuringRead
                           ++ [App.Submit 1700037000000 sampleIso sampleSnapshot])
               App.initial in
  App.NewEntry.image (App.newEntry s) = JS.str []
  /\ AppView.showsPreview s = false
  /\ Forall (fun e => GratitudeEntry.image e = JS.str []
                      /\ rendersImage e = false)
            (App.entries s).
Proof.
  apply (no_image_before_a_read_ends
           (submitDuringRead
              ++ [App.Submit 1700037000000 sampleIso sampleSnapshot])).
  vm_compute. reflexivity.
Defined.

(** X6: when an entry is submitted while a file read is under way, the
    entry is saved with the image the draft had at that moment, and the
    end of the read, successful or not, then leaves the list alone and
    fills the draft, just reset, with the text the draft held when the
    file was picked and the result of the read (the data URL, or [null]
    after a failure); the form stays closed. *)
Theorem submit_during_read :
  forall now iso snapshot k result s d,
    JS.trim (App.NewEntry.title (App.newEntry s)) <> [] ->
    JS.trim (App.NewEntry.description (App.newEntry s)) <> [] ->
    nth_error (App.readers s) k = Some d ->
    let s1 := fst (App.handleSubmit now iso snapshot s) in
    let s2 := App.onloadend k result s1 in
    App.newEntry s1 = App.emptyNewEntry
    /\ App.entries s2
       = App.mkEntry now iso snapshot (App.newEntry s) :: App.entries s
    /\ GratitudeEntry.image (App.mkEntry now iso snapshot (App.newEntry s))
       = App.NewEntry.image (App.newEntry s)
    /\ App.newEntry s2
       = App.NewEntry.mk (App.NewEntry.title d) (App.NewEntry.description d)
                         result (App.NewEntry.drawing d)
    /\ App.isAdding s2 = false.
Proof.
  intros now iso snapshot k result s d Ht Hd Hk. cbv zeta.
  rewrite (handleSubmit_valid now iso snapshot s Ht Hd).
  unfold App.onloadend. simpl. rewrite Hk. simpl.
  repeat split; reflexivity.
Qed.

Lemma submit_during_read_witness :
  let s := run App.step submitDuringRead App.initial in
  let d := App.NewEntry.mk (JS.lit "Sun") [] (JS.str []) [] in
  let s1 := fst (App.handleSubmit 1700037000000 sampleIso sampleSnapshot s) in
  let s2 := App.onloadend 0 JS.null s1 in
  App.newEntry s1 = App.emptyNewEntry
  /\ App.entries s2
     = App.mkEntry 1700037000000 sampleIso sampleSnapshot (App.newEntry s)
       :: App.entries s
  /\ GratitudeEntry.image
       (App.mkEntry 1700037000000 sampleIso sampleSnapshot (App.newEntry s))
     = App.NewEntry.image (App.newEntry s)
  /\ App.newEntry s2
     = App.NewEntry.mk (App.NewEntry.title d) (App.NewEntry.description d)
                       JS.null (App.NewEntry.drawing d)
  /\ App.isAdding s2 = false.
Proof.
  apply (submit_during_read 1700037000000 sampleIso sampleSnapshot 0
           JS.null (run App.step submitDuringRead App.initial)
           (App.NewEntry.mk (JS.lit "Sun") [] (JS.str []) []));
    vm_compute; (discriminate || reflexivity).
Defined.

(** ** Hooks that follow one kind of event *)

Lemma App_step_language (ev : App.Event) (s : App.State) :
  App.language (fst (App.step ev s))
  = match ev with
    | App.ToggleLanguage => LanguageContext.toggleLanguage (App.language s)
    | _ => App.language s
    end.
Proof.
  destruct ev; simpl; try reflexivity.
  - destruct file; reflexivity.
  - unfold App.onloadend. destruct (nth_error _ _); reflexivity.
  - unfold App.handleSubmit. destruct (_ && _); reflexivity.
Qed.

Lemma App_step_isDrawing (ev : App.Event) (s : App.State) :
  App.isDrawing (fst (App.step ev s))
  = match ev with
    | App.MouseDown => true
    | App.MouseUp => false
    | _ => App.isDrawing s
    end.
Proof.
  destruct ev; simpl; try reflexivity.
  - destruct file; reflexivity.
  - unfold App.onloadend. destruct (nth_error _ _); reflexivity.
  - unfold App.handleSubmit. destruct (_ && _); reflexivity.
Qed.

(** X7: after any trace the language is the starting one when the language
    button was clicked an even number of times and the other one when it
    was clicked an odd number of times; no other event changes it. *)
Theorem language_follows_toggle_parity :
  forall (evs : list App.Event) (s : App.State),
    App.language (run App.step evs s)
    = if Nat.even (toggles evs)
      then App.language s
      else LanguageContext.toggleLanguage (App.language s).
Proof.
  induction evs as [|ev rest IH]; intros s; [reflexivity|].
  simpl run. rewrite IH, App_step_language.
  destruct ev; try reflexivity.
  change (toggles (App.ToggleLanguage :: rest)) with (S (toggles rest)).
  rewrite Nat.even_succ, <- Nat.negb_even.
  destruct (Nat.even (toggles rest)); simpl; [reflexivity|].
  destruct (App.language s); reflexivity.
Qed.

(** X8: after any trace [isDrawing] is what the last mouse-down or
    mouse-up on the canvas made it, and what it was before when the trace
    has neither: submitting, cancelling and the other events leave it. *)
Theorem isDrawing_follows_last_button :
  forall (evs : list App.Event) (s : App.State),
    App.isDrawing (run App.step evs s)
    = match lastButton evs with
      | Some b => b
      | None => App.isDrawing s
      end.
Proof.
  induction evs as [|ev rest IH]; intros s; [reflexivity|].
  simpl. rewrite IH.
  destruct (lastButton rest); [reflexivity|].
  rewrite App_step_isDrawing. destruct ev; reflexivity.
Qed.

(** ** Traces in two parts *)

Section SplitTraces.

Variables State Event : Type.
Variable step : Event -> State -> State * option GratitudeEntry.

Lemma run_app (a b : list Event) :
  forall s, run step (a ++ b) s = run step b (run step a s).
Proof.
  induction a as [|ev rest IH]; intros s; simpl; [reflexivity | apply IH].
Qed.

Lemma produced_app (a b : list Event) :
  forall s, produced step (a ++ b) s
            = produced step a s ++ produced step b (run step a s).
Proof.
  induction a as [|ev rest IH]; intros s; simpl; [reflexivity|].
  rewrite IH, app_assoc. reflexivity.
Qed.

End SplitTraces.

(** ** Drawing on the canvas *)

Lemma calls_app (a b : list App.Event) :
  forall s, Canvas.calls (a ++ b) s
            = Canvas.calls a s ++ Canvas.calls b (run App.step a s).
Proof.
  induction a as [|ev rest IH]; intros s; simpl; [reflexivity|].
  rewrite IH, app_assoc. reflexivity.
Qed.

(** X9: releasing the button and pressing it again while drawing changes
    neither the state nor the calls made on the canvas context before or
    after: the handlers make no call at a mouse down, so the first
    [lineTo] of a gesture follows the [moveTo] of the last move of the
    gesture before it. *)
Theorem pen_lift_leaves_no_trace :
  forall (pre post : list App.Event) (s : App.State),
    App.isDrawing (run App.step pre s) = true ->
    Canvas.calls (pre ++ App.MouseUp :: App.MouseDown :: post) s
    = Canvas.calls (pre ++ post) s
    /\ run App.step (pre ++ App.MouseUp :: App.MouseDown :: post) s
       = run App.step (pre ++ post) s.
Proof.
  intros pre post s H.
  rewrite !calls_app, !run_app. simpl.
  assert (E : App.handleMouseDown (App.handleMouseUp (run App.step pre s))
              = run App.step pre s).
  { destruct (run App.step pre s). simpl in H. subst. reflexivity. }
  rewrite E. split; reflexivity.
Qed.

Lemma pen_lift_leaves_no_trace_witness :
  Canvas.calls (twoStrokes ++ App.MouseUp :: App.MouseDown
                           :: [App.MouseMove 80 90]) App.initial
  = Canvas.calls (twoStrokes ++ [App.MouseMove 80 90]) App.initial
  /\ run App.step (twoStrokes ++ App.MouseUp :: App.MouseDown
                              :: [App.MouseMove 80 90]) App.initial
     = run App.step (twoStrokes ++ [App.MouseMove 80 90]) App.initial.
Proof.
  apply (pen_lift_leaves_no_trace twoStrokes [App.MouseMove 80 90]
                                  App.initial).
  vm_compute. reflexivity.
Defined.



Example twoStrokes_calls :
  Canvas.calls twoStrokes App.initial
  = [Canvas.LineWidth 2; Canvas.LineCap (JS.lit "round");
     Canvas.StrokeStyle (JS.lit "#000");
     Canvas.LineTo 10 10; Canvas.Stroke; Canvas.BeginPath; Canvas.MoveTo 10 10;
     Canvas.LineWidth 2; Canvas.LineCap (JS.lit "round");
     Canvas.StrokeStyle (JS.lit "#000");
     Canvas.LineTo 20 15; Canvas.Stroke; Canvas.BeginPath; Canvas.MoveTo 20 15].
Proof. reflexivity. Qed.

(** ** The empty-state panel *)

(** X11: in the first variant the empty-state panel is rendered exactly
    when no submission of the trace has been accepted and the form is
    closed; it is never rendered together with the form. *)
Theorem empty_state_until_first_entry :
  forall evs : list App.Event,
    let s := run App.step evs App.initial in
    (AppView.showsEmptyState s = true
     <-> produced App.step evs App.initial = [] /\ App.isAdding s = false)
    /\ AppView.showsForm s && AppView.showsEmptyState s = false.
Proof.
  intros evs. cbv zeta.
  unfold AppView.showsEmptyState, AppView.showsForm.
  rewrite (run_entries _ _ App.step App.entries App_step_prepends).
  simpl. rewrite app_nil_r, length_rev.
  split.
  - rewrite andb_true_iff, negb_true_iff, Nat.eqb_eq, length_zero_iff_nil.
    tauto.
  - destruct (App.isAdding _); [rewrite andb_false_r|]; reflexivity.
Qed.

(** X12: in the second variant the list always ends with the two seeded
    entries in their English text, whatever language is selected, so the
    list is never empty and the empty-state panel is never rendered. *)
Theorem seeded_list_never_empty :
  forall evs : list AppSeeded.Event,
    let s := run AppSeeded.step evs AppSeeded.initial in
    AppSeeded.entries s
    = rev (produced AppSeeded.step evs AppSeeded.initial)
      ++ AppSeeded.seededEntries LanguageContext.en
    /\ (2 <= List.length (AppSeeded.entries s))%nat
    /\ AppSeededView.showsEmptyState s = false.
Proof.
  intros evs. cbv zeta.
  unfold AppSeededView.showsEmptyState.
  rewrite (run_entries _ _ AppSeeded.step AppSeeded.entries
                       AppSeeded_step_prepends).
  change (AppSeeded.entries AppSeeded.initial)
    with (AppSeeded.seededEntries LanguageContext.en).
  split; [reflexivity|].
  rewrite length_app.
  change (List.length (AppSeeded.seededEntries LanguageContext.en)) with 2%nat.
  split; [lia|].
  destruct (Nat.eqb_spec (List.length (rev (produced AppSeeded.step evs
                                                     AppSeeded.initial)) + 2) 0);
    [lia | reflexivity].
Qed.

Example seeded_stay_english :
  let s := run AppSeeded.step seededTrace AppSeeded.initial in
  AppSeeded.language s = LanguageContext.th
  /\ skipn 1 (AppSeeded.entries s) = AppSeeded.seededEntries LanguageContext.en
  /\ AppSeeded.seededEntries LanguageContext.th
     <> AppSeeded.seededEntries LanguageContext.en.
Proof. repeat split. discriminate. Qed.

(** ** The two variants side by side *)

Lemma forget_step (ev : App.Event) (s : App.State) :
  isLoadEnd ev = false ->
  forgetState (fst (App.step ev s))
  = run AppSeeded.step (projectEvent ev) (forgetState s)
  /\ map forgetEntry (created (snd (App.step ev s)))
     = produced AppSeeded.step (projectEvent ev) (forgetState s).
Proof.
  intros Hev. destruct ev; try discriminate; simpl;
    try (split; reflexivity).
  - destruct file; split; reflexivity.
  - unfold App.handleSubmit, AppSeeded.handleSubmit. simpl.
    destruct (_ && _); split; reflexivity.
Qed.

Lemma forget_run (evs : list App.Event) :
  forall s,
    existsb isLoadEnd evs = false ->
    forgetState (run App.step evs s)
    = run AppSeeded.step (projectTrace evs) (forgetState s)
    /\ map forgetEntry (produced App.step evs s)
       = produced AppSeeded.step (projectTrace evs) (forgetState s).
Proof.
  induction evs as [|ev rest IH]; intros s Hev; simpl in *;
    [split; reflexivity|].
  apply orb_false_iff in Hev. destruct Hev as [Hev Hrest].
  destruct (forget_step ev s Hev) as [Hs Hp].
  destruct (IH (fst (App.step ev s)) Hrest) as [IHs IHp].
  unfold projectTrace in *. simpl.
  rewrite run_app, produced_app, map_app, <- Hs, <- Hp, IHs, IHp.
  split; reflexivity.
Qed.

(** The handlers of the second variant do not look at the entries behind
    the ones they add. *)
Lemma withOlder_step (older : list GratitudeEntry) (ev : AppSeeded.Event)
      (s : AppSeeded.State) :
  AppSeeded.step ev (withOlder older s)
  = (withOlder older (fst (AppSeeded.step ev s)), snd (AppSeeded.step ev s)).
Proof.
  destruct ev; try reflexivity.
  simpl. unfold AppSeeded.handleSubmit. simpl.
  destruct (_ && _); reflexivity.
Qed.

Lemma withOlder_run (older : list GratitudeEntry)
      (evs : list AppSeeded.Event) :
  forall s,
    run AppSeeded.step evs (withOlder older s)
    = withOlder older (run AppSeeded.step evs s)
    /\ produced AppSeeded.step evs (withOlder older s)
       = produced AppSeeded.step evs s.
Proof.
  induction evs as [|ev rest IH]; intros s; simpl; [split; reflexivity|].
  rewrite withOlder_step. simpl.
  destruct (IH (fst (AppSeeded.step ev s))) as [Hr Hp].
  rewrite Hr, Hp. split; reflexivity.
Qed.

(** X13: without its attachments the first variant behaves as the second.
    Along a trace in which no file read ends, the second variant started
    from its own initial state and run on the shared events reaches the
    state the first variant reaches from its initial state, with image
    and drawing dropped and the two seeded entries behind the list, and
    builds the same entries up to image and drawing.  The same holds from
    any state of the first variant against the second variant started
    with any entries behind its list. *)
Theorem first_variant_simulates_second :
  forall (evs : list App.Event) (s : App.State)
         (older : list GratitudeEntry),
    existsb isLoadEnd evs = false ->
    run AppSeeded.step (projectTrace evs) AppSeeded.initial
    = withOlder (AppSeeded.seededEntries LanguageContext.en)
                (forgetState (run App.step evs App.initial))
    /\ produced AppSeeded.step (projectTrace evs) AppSeeded.initial
       = map forgetEntry (produced App.step evs App.initial)
    /\ run AppSeeded.step (projectTrace evs) (withOlder older (forgetState s))
       = withOlder older (forgetState (run App.step evs s))
    /\ produced AppSeeded.step (projectTrace evs)
                (withOlder older (forgetState s))
       = map forgetEntry (produced App.step evs s).
Proof.
  intros evs s older Hev.
  assert (G : forall s0 old,
             run AppSeeded.step (projectTrace evs)
                 (withOlder old (forgetState s0))
             = withOlder old (forgetState (run App.step evs s0))
             /\ produced AppSeeded.step (projectTrace evs)
                         (withOlder old (forgetState s0))
                = map forgetEntry (produced App.step evs s0)).
  { intros s0 old.
    destruct (withOlder_run old (projectTrace evs) (forgetState s0))
      as [Hr Hp].
    destruct (forget_run evs s0 Hev) as [Fr Fp].
    rewrite Hr, Hp, <- Fr, <- Fp. split; reflexivity. }
  change AppSeeded.initial
    with (withOlder (AppSeeded.seededEntries LanguageContext.en)
                    (forgetState App.initial)).
  destruct (G App.initial (AppSeeded.seededEntries LanguageContext.en))
    as [G1 G2].
  destruct (G s older) as [G3 G4].
  repeat split; assumption.
Qed.

Lemma first_variant_simulates_second_witness :
  run AppSeeded.step (projectTrace sampleTrace) AppSeeded.initial
  = withOlder (AppSeeded.seededEntries LanguageContext.en)
              (forgetState (run App.step sampleTrace App.initial))
  /\ produced AppSeeded.step (projectTrace sampleTrace) AppSeeded.initial
     = map forgetEntry (produced App.step sampleTrace App.initial)
  /\ run AppSeeded.step (projectTrace sampleTrace)
         (withOlder [seededSecond] (forgetState oneEntryState))
     = withOlder [seededSecond]
                 (forgetState (run App.step sampleTrace oneEntryState))
  /\ produced AppSeeded.step (projectTrace sampleTrace)
              (withOlder [seededSecond] (forgetState oneEntryState))
     = map forgetEntry (produced App.step sampleTrace oneEntryState).
Proof.
  apply (first_variant_simulates_second sampleTrace oneEntryState
                                        [seededSecond]).
  reflexivity.
Defined.

Example seeded_run_of_sampleTrace :
  map GratitudeEntry.id
      (AppSeeded.entries
         (run AppSeeded.step (projectTrace sampleTrace) AppSeeded.initial))
  = [1700000002000; 1700000000000; 1; 2]%Z
  /\ map GratitudeEntry.id
         (App.entries (run App.step sampleTrace App.initial))
     = [1700000002000; 1700000000000]%Z.
Proof. split; reflexivity. Qed.

(** ** Typing while a file is read *)

Lemma text_edits_keep_readers (mid : list App.Event) :
  forall s, forallb isTextEdit mid = true ->
            App.readers (run App.step mid s) = App.readers s.
Proof.
  induction mid as [|ev rest IH]; intros s H; simpl in *; [reflexivity|].
  apply andb_true_iff in H. destruct H as [Hev Hrest].
  rewrite (IH _ Hrest). destruct ev; try discriminate; reflexivity.
Qed.

(** X14: when a file is picked and only the title and the description are
    edited until its read ends, the end of the read, successful or not,
    sets the draft to the draft of the moment the file was picked with
    the result of the read as image (the data URL, or [null] after a
    failure): every edit made in between is discarded, and with no edit
    in between only the image changes.  The list of entries is as
    before. *)
Theorem read_end_restores_draft_of_pick :
  forall (mid : list App.Event) (result : JS.Value) (s : App.State),
    forallb isTextEdit mid = true ->
    let picked := App.handleImageChange true s in
    let ended := App.onloadend (List.length (App.readers s)) result
                               (run App.step mid picked) in
    App.newEntry ended
    = App.NewEntry.mk (App.NewEntry.title (App.newEntry s))
                      (App.NewEntry.description (App.newEntry s))
                      result
                      (App.NewEntry.drawing (App.newEntry s))
    /\ App.readers ended = App.readers s
    /\ App.entries ended = App.entries (run App.step mid picked).
Proof.
  intros mid result s H. cbv zeta.
  unfold App.onloadend.
  rewrite (text_edits_keep_readers mid (App.handleImageChange true s) H).
  simpl App.readers.
  assert (E : nth_error (App.readers s ++ [App.newEntry s])
                        (List.length (App.readers s))
              = Some (App.newEntry s))
    by (rewrite nth_error_app2, Nat.sub_diag by lia; reflexivity).
  rewrite E. simpl.
  repeat split.
  clear. induction (App.readers s) as [|d r IH]; simpl; [reflexivity|].
  rewrite IH. reflexivity.
Qed.

Lemma read_end_restores_draft_of_pick_witness :
  let s := sampleDraftState in
  let mid := [App.ChangeTitle (JS.lit "Evening"); App.ChangeDescription []] in
  let picked := App.handleImageChange true s in
  let ended := App.onloadend (List.length (App.readers s))
                             (JS.str sampleDataUrl)
                             (run App.step mid picked) in
  App.newEntry ended
  = App.NewEntry.mk (App.NewEntry.title (App.newEntry s))
                    (App.NewEntry.description (App.newEntry s))
                    (JS.str sampleDataUrl)
                    (App.NewEntry.drawing (App.newEntry s))
  /\ App.readers ended = App.readers s
  /\ App.entries ended = App.entries (run App.step mid picked).
Proof.
  apply (read_end_restores_draft_of_pick
           [App.ChangeTitle (JS.lit "Evening"); App.ChangeDescription []]
           (JS.str sampleDataUrl) sampleDraftState).
  reflexivity.
Defined.

(** A read that fails leaves [null] as the draft's image; a submission
    after it saves the entry with that value and no photo is rendered. *)
Example failed_read_then_submit :
  let s := run App.step
               [App.ClickAdd; App.ImageChange true; App.LoadEnd 0 JS.null;
                App.ChangeTitle (JS.lit "Sun");
                App.ChangeDescription (JS.lit "Warm");
                App.Submit 1700037000000 sampleIso sampleSnapshot]
               App.initial in
  map GratitudeEntry.image (App.entries s) = [JS.null]
  /\ map rendersImage (App.entries s) = [false]
  /\ map GratitudeEntry.title (App.entries s) = [JS.lit "Sun"].
Proof. repeat split. Qed.
